(** * Authentication module (auth.js): login, validateCredentials, logout

    A shallow embedding of the three functions of [auth.js] and the
    properties of its specification.

    The functions read the [length] property of their arguments, join
    strings with [+] and write messages with [console.log].  Reading a
    property of [undefined] raises a [TypeError], so the embedding lives in
    a small monad that threads the console and carries a raised exception. *)

From Stdlib Require Import Ascii String List Arith Bool Lia.
Import ListNotations.

Local Open Scope string_scope.
Local Open Scope list_scope.
Local Open Scope nat_scope.

(** ** Values *)

(** An argument of a call: a text, or nothing at all (a JavaScript caller
    may leave an argument out, the parameter is then [undefined]).  A
    text is a sequence of code units; [String.length] counts them as the
    [length] property does. *)
Inductive jsval : Type :=
  | JUndefined
  | JString (s : string).

(** What a call gives back to its caller. *)
Inductive retval : Type :=
  | RUndefined
  | RBool (b : bool).

Inductive exn : Type :=
  | TypeError.

Inductive outcome (A : Type) : Type :=
  | Return (a : A)
  | Throw (e : exn).

Arguments Return {A} a.
Arguments Throw {A} e.

(** ** The console and the monad of computations *)

(** The messages written so far, one for each [console.log] call, oldest
    first.  A message is kept whole, as the text that was passed; the
    lines it shows as on the output stream are given by [shown_lines]
    below. *)
Definition console : Type := list string.

Definition js (A : Type) : Type := console -> outcome A * console.

Definition ret {A : Type} (a : A) : js A :=
  fun out => (Return a, out).

Definition throw {A : Type} (e : exn) : js A :=
  fun out => (Throw e, out).

Definition bind {A B : Type} (m : js A) (k : A -> js B) : js B :=
  fun out =>
    match m out with
    | (Return a, out') => k a out'
    | (Throw e, out') => (Throw e, out')
    end.

Declare Scope js_scope.
Delimit Scope js_scope with js.
Notation "x <- m ;; k" := (bind m (fun x => k))
  (at level 100, m at next level, right associativity) : js_scope.
Notation "m ;; k" := (bind m (fun _ => k))
  (at level 100, right associativity) : js_scope.
Local Open Scope js_scope.

(** [console.log(line)]: one more message on the console. *)
Definition console_log (line : string) : js unit :=
  fun out => (Return tt, out ++ [line]).

(** [v.length]: the number of code units of a text; a [TypeError] on
    [undefined], which has no properties. *)
Definition get_length (v : jsval) : js nat :=
  match v with
  | JString s => ret (String.length s)
  | JUndefined => throw TypeError
  end.

(** [ToString(v)], as [+] applies it to an operand next to a text. *)
Definition to_string (v : jsval) : string :=
  match v with
  | JString s => s
  | JUndefined => "undefined"
  end.

(** [a && b] on boolean operands: [b] is evaluated only when [a] is true. *)
Definition js_and (a b : js bool) : js bool :=
  x <- a ;;
  if x then b else ret false.

(** ** The functions of auth.js *)

(** [return username.length > 0 && password.length >= 6;] *)
Definition validateCredentials (username password : jsval) : js bool :=
  js_and (ulen <- get_length username ;; ret (0 <? ulen))
         (plen <- get_length password ;; ret (6 <=? plen)).

Definition login (username password : jsval) : js bool :=
  ok <- validateCredentials username password ;;
  if ok then
    (console_log (("User " ++ to_string username) ++ " logged in successfully")%string ;;
     ret true)
  else
    (console_log "Login failed" ;;
     ret false).

Definition logout : js unit :=
  console_log "User logged out".

(** ** Sequences of calls *)

(** The module exports [login], [logout] and [validateCredentials]; a
    caller may invoke them in any order. *)
Inductive call : Type :=
  | CallLogin (username password : jsval)
  | CallLogout
  | CallValidate (username password : jsval).

Definition exec (c : call) : js retval :=
  match c with
  | CallLogin u p => b <- login u p ;; ret (RBool b)
  | CallLogout => logout ;; ret RUndefined
  | CallValidate u p => b <- validateCredentials u p ;; ret (RBool b)
  end.

(** A caller that makes the calls of [h] one after the other and notes
    how each one ended; the console is shared by all of them. *)
Fixpoint run (h : list call) (out : console) : list (outcome retval) * console :=
  match h with
  | [] => ([], out)
  | c :: h' =>
      let (r, out') := exec c out in
      let (rs, out'') := run h' out' in
      (r :: rs, out'')
  end.

(** How a call ended, seen through a function on what it returned. *)
Definition map_outcome {A B : Type} (f : A -> B) (o : outcome A) : outcome B :=
  match o with
  | Return a => Return (f a)
  | Throw e => Throw e
  end.

(** The result of a call read off its arguments alone, on a fresh
    console. *)
Definition result_of (c : call) : outcome retval :=
  fst (exec c []).

(** The messages a call writes, read off its arguments alone, on a
    fresh console. *)
Definition written (c : call) : list string :=
  snd (exec c []).

(** ** The output stream *)

(** The line feed. *)
Definition LF : ascii := "010"%char.

(** The characters that reach the output stream: [console.log] writes
    its one argument as it is, and a line feed after it. *)
Definition stream (out : console) : string :=
  fold_right (fun m rest => (m ++ String LF rest)%string) ""%string out.

(** The lines of a stream: the texts between its line feeds.  A rest
    without a closing line feed counts as a last line. *)
Fixpoint stream_lines (s : string) : list string :=
  match s with
  | EmptyString => []
  | String c s' =>
      if Ascii.eqb c LF then ""%string :: stream_lines s'
      else
        match stream_lines s' with
        | [] => [String c ""]
        | l :: ls => String c l :: ls
        end
  end.

(** The lines a reader of the console sees. *)
Definition shown_lines (out : console) : list string :=
  stream_lines (stream out).

Fixpoint has_newline (s : string) : bool :=
  match s with
  | EmptyString => false
  | String c s' => Ascii.eqb c LF || has_newline s'
  end.

(** An argument that brings no line feed of its own: a text without one,
    or a missing argument. *)
Definition newline_free (v : jsval) : bool :=
  match v with
  | JString s => negb (has_newline s)
  | JUndefined => true
  end.

(** ** Basic equations *)

Section Equations.

Variable out : console.

Lemma validate_text (u p : string) :
  validateCredentials (JString u) (JString p) out
  = (Return ((0 <? String.length u) && (6 <=? String.length p)), out).
Proof.
  unfold validateCredentials, js_and, bind, get_length, ret.
  destruct (0 <? String.length u); reflexivity.
Qed.

Lemma validate_keeps_console (u p : jsval) :
  snd (validateCredentials u p out) = out.
Proof.
  destruct u as [|u], p as [|p]; try reflexivity.
  - unfold validateCredentials, js_and, bind, get_length, ret, throw.
    destruct (0 <? String.length u); reflexivity.
  - rewrite validate_text. reflexivity.
Qed.

Lemma login_unfold (u p : jsval) :
  login u p out =
  match fst (validateCredentials u p out) with
  | Return true =>
      (Return true,
       out ++ [(("User " ++ to_string u) ++ " logged in successfully")%string])
  | Return false => (Return false, out ++ ["Login failed"])
  | Throw e => (Throw e, out)
  end.
Proof.
  unfold login, bind at 1.
  pose proof (validate_keeps_console u p) as Hk.
  destruct (validateCredentials u p out) as [[[|]|e] out']; simpl in *;
    subst; reflexivity.
Qed.

End Equations.

Lemma length_pos_nonempty (s : string) :
  (0 <? String.length s) = true <-> s <> "".
Proof.
  destruct s as [|c s]; cbn.
  - split; [discriminate | intro H; now contradiction H].
  - split; [discriminate | reflexivity].
Qed.

Lemma validate_outcome_any_console (u p : jsval) (out out' : console) :
  fst (validateCredentials u p out) = fst (validateCredentials u p out').
Proof.
  destruct u as [|u], p as [|p]; try reflexivity.
  - unfold validateCredentials, js_and, bind, get_length, ret, throw.
    destruct (0 <? String.length u); reflexivity.
  - now rewrite !validate_text.
Qed.

Lemma login_outcome (u p : jsval) (out : console) :
  fst (login u p out) = fst (validateCredentials u p out).
Proof.
  rewrite login_unfold.
  destruct (fst (validateCredentials u p out)) as [[|]|e]; reflexivity.
Qed.

Lemma login_text (u p : string) (out : console) :
  login (JString u) (JString p) out =
  if (0 <? String.length u) && (6 <=? String.length p)
  then (Return true, out ++ [("User " ++ u ++ " logged in successfully")%string])
  else (Return false, out ++ ["Login failed"]).
Proof.
  rewrite login_unfold, validate_text. cbn [fst to_string].
  destruct ((0 <? String.length u) && (6 <=? String.length p)); reflexivity.
Qed.

(** ** The functions on sample inputs *)

Example validate_alice_longpassword :
  validateCredentials (JString "alice") (JString "longpassword") []
  = (Return true, []).
Proof. reflexivity. Qed.

Example login_alice_after_a_line :
  login (JString "alice") (JString "123456") ["User logged out"]
  = (Return true, ["User logged out"; "User alice logged in successfully"]).
Proof. reflexivity. Qed.

Example login_missing_password :
  login (JString "alice") JUndefined [] = (Throw TypeError, []).
Proof. reflexivity. Qed.

Example run_sample_session :
  run [CallLogin (JString "bob") (JString "abc");
       CallValidate JUndefined (JString "abcdef");
       CallLogin (JString "bob") (JString "abcdef");
       CallLogout] []
  = ([Return (RBool false); Throw TypeError; Return (RBool true);
      Return RUndefined],
     ["Login failed"; "User bob logged in successfully"; "User logged out"]).
Proof. reflexivity. Qed.

(** ** validateCredentials *)

(** C1: on a username text [u] and a password text [p],
    [validateCredentials] returns true exactly when [u] is not empty and
    [p] has at least 6 code units, and returns false exactly when that
    fails; it writes nothing, and nothing else about [u] and [p] enters the
    result. *)
Theorem validate_true_iff (u p : string) (out : console) :
  (validateCredentials (JString u) (JString p) out = (Return true, out)
   <-> u <> "" /\ 6 <= String.length p)
  /\
  (validateCredentials (JString u) (JString p) out = (Return false, out)
   <-> ~ (u <> "" /\ 6 <= String.length p)).
Proof.
  rewrite validate_text.
  assert (Hb : (0 <? String.length u) && (6 <=? String.length p) = true
               <-> u <> "" /\ 6 <= String.length p).
  { rewrite andb_true_iff, length_pos_nonempty, Nat.leb_le. reflexivity. }
  destruct ((0 <? String.length u) && (6 <=? String.length p)).
  - split; split.
    + intros _. apply Hb. reflexivity.
    + reflexivity.
    + discriminate.
    + intros H. exfalso. apply H, Hb. reflexivity.
  - split; split.
    + discriminate.
    + intros H. apply Hb in H. discriminate.
    + intros _ H. apply Hb in H. discriminate.
    + reflexivity.
Qed.

(** C4: with the empty username, [validateCredentials] returns false
    whatever the password text is. *)
Theorem validate_empty_username (p : string) (out : console) :
  validateCredentials (JString "") (JString p) out = (Return false, out).
Proof.
  rewrite validate_text. reflexivity.
Qed.

(** C5: the boundary of the password rule: for the username "alice" a
    password of 5 code units is refused and one of exactly 6 is
    accepted. *)
Theorem validate_length_boundary :
  validateCredentials (JString "alice") (JString "12345") [] = (Return false, [])
  /\ validateCredentials (JString "alice") (JString "123456") [] = (Return true, []).
Proof.
  split; reflexivity.
Qed.

(** C9: two password texts with the same number of code units are
    treated alike, for every username (a text or a missing one): only the
    length of the password is consulted. *)
Theorem validate_password_length_only (u : jsval) (p1 p2 : string) (out : console) :
  String.length p1 = String.length p2 ->
  validateCredentials u (JString p1) out = validateCredentials u (JString p2) out.
Proof.
  intros Hlen.
  destruct u as [|u].
  - reflexivity.
  - rewrite !validate_text, Hlen. reflexivity.
Qed.

Lemma validate_password_length_only_witness :
  validateCredentials (JString "alice") (JString "123456") []
  = validateCredentials (JString "alice") (JString "abcdef") [].
Proof.
  apply (validate_password_length_only (JString "alice") "123456" "abcdef" []).
  reflexivity.
Defined.

(** ** login *)

(** C2: [login] ends the way [validateCredentials] ends on the same
    arguments, whatever is on the console of either call; on two texts both
    return the same boolean. *)
Theorem login_returns_validate :
  (forall (u p : jsval) (out out' : console),
      fst (login u p out) = fst (validateCredentials u p out'))
  /\
  (forall (u p : string) (out out' : console),
      exists b : bool,
        fst (login (JString u) (JString p) out) = Return b
        /\ fst (validateCredentials (JString u) (JString p) out') = Return b).
Proof.
  split.
  - intros u p out out'.
    rewrite login_outcome. apply validate_outcome_any_console.
  - intros u p out out'.
    exists ((0 <? String.length u) && (6 <=? String.length p)).
    rewrite login_outcome, !validate_text. split; reflexivity.
Qed.

(** C3 as stated does not hold: with the username left out, the read of
    [username.length] raises, in [validateCredentials] and so in [login];
    the outcome is not the boolean false. *)
Lemma validate_missing_username_raises :
  fst (validateCredentials JUndefined (JString "secret1") []) = Throw TypeError
  /\ fst (login JUndefined (JString "secret1") []) = Throw TypeError
  /\ fst (validateCredentials JUndefined (JString "secret1") []) <> Return false.
Proof.
  repeat split; try reflexivity. discriminate.
Qed.

(** C3, amended: on two texts [validateCredentials] and [login] never
    raise, each returns a boolean, the same one, and false is the only
    failure outcome.  A missing argument is not turned into false: both
    functions raise a [TypeError] when the username is missing, and when
    the username is a non-empty text and the password is missing; only with
    the empty username does a missing password give false, as the password
    is then never read. *)
Theorem validate_login_outcomes :
  (forall (u p : string) (out : console),
      exists b : bool,
        validateCredentials (JString u) (JString p) out = (Return b, out)
        /\ fst (login (JString u) (JString p) out) = Return b)
  /\
  (forall (p : jsval) (out : console),
      validateCredentials JUndefined p out = (Throw TypeError, out)
      /\ login JUndefined p out = (Throw TypeError, out))
  /\
  (forall (c : Ascii.ascii) (u : string) (out : console),
      validateCredentials (JString (String c u)) JUndefined out
      = (Throw TypeError, out)
      /\ login (JString (String c u)) JUndefined out = (Throw TypeError, out))
  /\
  (forall out : console,
      validateCredentials (JString "") JUndefined out = (Return false, out)
      /\ login (JString "") JUndefined out
         = (Return false, out ++ ["Login failed"])).
Proof.
  split; [|split; [|split]].
  - intros u p out.
    exists ((0 <? String.length u) && (6 <=? String.length p)).
    rewrite login_outcome, validate_text. split; reflexivity.
  - intros p out. split; reflexivity.
  - intros c u out. split; reflexivity.
  - intros out. split; reflexivity.
Qed.

(** C8 as stated does not hold for every input pair: with the username
    left out, [login] raises before it reaches a [console.log] and writes
    no message at all. *)
Lemma login_missing_username_writes_nothing :
  login JUndefined (JString "secret1") [] = (Throw TypeError, [])
  /\ ~ (exists m : string,
          snd (login JUndefined (JString "secret1") []) = [] ++ [m]).
Proof.
  split; [reflexivity|].
  intros [m H]. discriminate H.
Qed.

(** C8, amended: on two texts [login] writes exactly one message per
    call, after the messages already on the console, which stay as they
    are: the status message when [validateCredentials] returns true, the
    failure message when it returns false; [validateCredentials] itself
    writes nothing.  With a missing argument [login] writes one message
    when [validateCredentials] returns (the failure message, for the empty
    username and a missing password) and none when it raises (a missing
    username, or a missing password after a non-empty username): [login]
    then raises too and leaves the console as it found it. *)
Theorem login_writes_one_message :
  (forall (u p : string) (out : console),
      exists b : bool,
        validateCredentials (JString u) (JString p) out = (Return b, out)
        /\ login (JString u) (JString p) out
           = (Return b,
              out ++ [if b
                      then ("User " ++ u ++ " logged in successfully")%string
                      else "Login failed"]))
  /\
  (forall (u p : jsval) (out : console),
      login u p out
      = match validateCredentials u p out with
        | (Return b, _) =>
            (Return b,
             out ++ [if b
                     then ("User " ++ to_string u
                           ++ " logged in successfully")%string
                     else "Login failed"])
        | (Throw e, _) => (Throw e, out)
        end)
  /\
  (forall (p : jsval) (out : console),
      login JUndefined p out = (Throw TypeError, out))
  /\
  (forall (c : Ascii.ascii) (u : string) (out : console),
      login (JString (String c u)) JUndefined out = (Throw TypeError, out))
  /\
  (forall out : console,
      login (JString "") JUndefined out
      = (Return false, out ++ ["Login failed"])).
Proof.
  split; [|split; [|split; [|split]]].
  - intros u p out.
    exists ((0 <? String.length u) && (6 <=? String.length p)).
    rewrite login_text, validate_text.
    split; [reflexivity|].
    destruct ((0 <? String.length u) && (6 <=? String.length p)); reflexivity.
  - intros u p out. rewrite login_unfold.
    destruct (validateCredentials u p out) as [[[|]|e] out']; reflexivity.
  - intros p out. reflexivity.
  - intros c u out. reflexivity.
  - intros out. reflexivity.
Qed.

Lemma substring_prefix (u t : string) :
  substring 0 (String.length u) (u ++ t) = u.
Proof.
  induction u as [|c u IH]; cbn.
  - destruct t; reflexivity.
  - now rewrite IH.
Qed.

(** C10: when [login] succeeds on two texts, the line it writes is
    "User ", the username, " logged in successfully", with the username
    copied as it was given (it is read back from position 5 of the line);
    when it fails the line is "Login failed", the same for every failing
    pair of texts. *)
Theorem login_line_text (u p : string) (out : console) :
  (fst (login (JString u) (JString p) out) = Return true ->
   snd (login (JString u) (JString p) out)
   = out ++ [("User " ++ u ++ " logged in successfully")%string]
   /\ substring 5 (String.length u)
        ("User " ++ u ++ " logged in successfully") = u)
  /\
  (fst (login (JString u) (JString p) out) = Return false ->
   snd (login (JString u) (JString p) out) = out ++ ["Login failed"]
   /\ forall u' p' : string,
       fst (login (JString u') (JString p') out) = Return false ->
       snd (login (JString u') (JString p') out)
       = snd (login (JString u) (JString p) out)).
Proof.
  split; intros H.
  - rewrite login_text in *.
    destruct ((0 <? String.length u) && (6 <=? String.length p));
      [|discriminate H].
    split; [reflexivity|].
    cbn. apply substring_prefix.
  - rewrite login_text in *.
    destruct ((0 <? String.length u) && (6 <=? String.length p));
      [discriminate H|].
    split; [reflexivity|].
    intros u' p' H'. rewrite login_text in *.
    destruct ((0 <? String.length u') && (6 <=? String.length p'));
      [discriminate H'|reflexivity].
Qed.

Lemma login_line_text_witness :
  snd (login (JString "alice") (JString "123456") [])
  = ["User alice logged in successfully"]
  /\ substring 5 5 "User alice logged in successfully" = "alice"
  /\ snd (login (JString "alice") (JString "12345") []) = ["Login failed"]
  /\ snd (login (JString "") (JString "longpassword") [])
     = snd (login (JString "alice") (JString "12345") []).
Proof.
  destruct (login_line_text "alice" "123456" []) as [Hok _].
  destruct (Hok eq_refl) as [H1 H2].
  destruct (login_line_text "alice" "12345" []) as [_ Hko].
  destruct (Hko eq_refl) as [H3 H4].
  split; [exact H1|].
  split; [exact H2|].
  split; [exact H3|].
  exact (H4 "" "longpassword" eq_refl).
Defined.

(** ** Sequences of calls: logout, and the absence of state *)

Lemma bind_ret_outcome {A B : Type} (m : js A) (f : A -> B) (out : console) :
  fst (bind m (fun a => ret (f a)) out) = map_outcome f (fst (m out)).
Proof.
  unfold bind, ret. destruct (m out) as [[a|e] out']; reflexivity.
Qed.

Lemma exec_outcome_any_console (c : call) (out out' : console) :
  fst (exec c out) = fst (exec c out').
Proof.
  destruct c as [u p| |u p]; cbn [exec].
  - rewrite !bind_ret_outcome, !login_outcome.
    now rewrite (validate_outcome_any_console u p out out').
  - reflexivity.
  - rewrite !bind_ret_outcome.
    now rewrite (validate_outcome_any_console u p out out').
Qed.

Lemma run_cons (c : call) (h : list call) (out : console) :
  run (c :: h) out
  = (fst (exec c out) :: fst (run h (snd (exec c out))),
     snd (run h (snd (exec c out)))).
Proof.
  cbn [run]. destruct (exec c out) as [r out1]. cbn [fst snd].
  destruct (run h out1) as [rs out2]. reflexivity.
Qed.

Lemma run_app (h1 h2 : list call) (out : console) :
  run (h1 ++ h2) out
  = (fst (run h1 out) ++ fst (run h2 (snd (run h1 out))),
     snd (run h2 (snd (run h1 out)))).
Proof.
  revert out. induction h1 as [|c h1 IH]; intros out.
  - cbn. now destruct (run h2 out).
  - rewrite <- app_comm_cons, !run_cons, IH. reflexivity.
Qed.

(** C6: after any sequence of calls, on any console, [logout] does not
    raise: it returns, without a value, and appends the one line
    "User logged out" to the console.  The caller sees the same when the
    call comes last in a sequence. *)
Theorem logout_always_completes (h : list call) (out : console) :
  logout (snd (run h out))
  = (Return tt, snd (run h out) ++ ["User logged out"])
  /\ run (h ++ [CallLogout]) out
     = (fst (run h out) ++ [Return RUndefined],
        snd (run h out) ++ ["User logged out"]).
Proof.
  split.
  - reflexivity.
  - rewrite run_app. reflexivity.
Qed.

(** C7: the calls keep no state.  In any sequence of calls, started on any
    console, each call ends as its arguments alone decide ([result_of]
    looks at nothing else); so the same call ends the same way after any
    two histories, and no call changes how a later one ends. *)
Theorem calls_stateless :
  (forall (h : list call) (out : console),
      fst (run h out) = map result_of h)
  /\
  (forall (c : call) (h1 h2 : list call) (out1 out2 : console),
      fst (exec c (snd (run h1 out1))) = fst (exec c (snd (run h2 out2)))).
Proof.
  split.
  - intros h. induction h as [|c h IH]; intros out.
    + reflexivity.
    + rewrite run_cons. cbn [fst map]. rewrite IH.
      unfold result_of at 2.
      now rewrite (exec_outcome_any_console c out []).
  - intros c h1 h2 out1 out2. apply exec_outcome_any_console.
Qed.

(** ** What the calls write *)

Lemma bind_ret_console {A B : Type} (m : js A) (f : A -> B) (out : console) :
  snd (bind m (fun a => ret (f a)) out) = snd (m out).
Proof.
  unfold bind, ret. destruct (m out) as [[a|e] out']; reflexivity.
Qed.

Lemma login_console (u p : jsval) (out : console) :
  snd (login u p out) = out ++ snd (login u p []).
Proof.
  rewrite !login_unfold, (validate_outcome_any_console u p out []).
  destruct (fst (validateCredentials u p [])) as [[|]|e]; cbn [snd app];
    try reflexivity.
  now rewrite app_nil_r.
Qed.

Lemma exec_console (c : call) (out : console) :
  snd (exec c out) = out ++ written c.
Proof.
  unfold written. destruct c as [u p| |u p]; cbn [exec].
  - rewrite !bind_ret_console. apply login_console.
  - reflexivity.
  - rewrite !bind_ret_console, !validate_keeps_console.
    now rewrite app_nil_r.
Qed.

Lemma string_length_append (s t : string) :
  String.length (s ++ t) = String.length s + String.length t.
Proof.
  induction s as [|c s IH]; cbn; [reflexivity | now rewrite IH].
Qed.

Lemma string_append_inv_tail (s1 s2 t : string) :
  (s1 ++ t)%string = (s2 ++ t)%string -> s1 = s2.
Proof.
  revert s2. induction s1 as [|c s1 IH]; intros [|d s2] H; cbn in H.
  - reflexivity.
  - apply (f_equal String.length) in H. cbn in H.
    rewrite string_length_append in H. lia.
  - apply (f_equal String.length) in H. cbn in H.
    rewrite string_length_append in H. lia.
  - injection H as Hc Hs. subst d. f_equal. now apply IH.
Qed.

(** X1: a sequence of calls only ever appends to the console.  The lines
    that were there stay, in place and unchanged, and what is added is
    the lines of the single calls, in call order; what each call adds is
    decided by its own arguments, not by the console it finds. *)
Theorem run_console_append_only (h : list call) (out : console) :
  snd (run h out) = out ++ concat (map written h).
Proof.
  revert out. induction h as [|c h IH]; intros out.
  - cbn. now rewrite app_nil_r.
  - rewrite run_cons. cbn [snd map concat].
    rewrite IH, exec_console, app_assoc. reflexivity.
Qed.

(** X2: a call that raises has written nothing: the console is left as
    the call found it, and the exception is a [TypeError]. *)
Theorem raising_call_writes_nothing (c : call) (out : console) (e : exn) :
  fst (exec c out) = Throw e ->
  snd (exec c out) = out /\ e = TypeError.
Proof.
  intros H. split; [|now destruct e].
  destruct c as [u p| |u p]; cbn [exec] in *.
  - rewrite bind_ret_outcome in H. rewrite bind_ret_console.
    rewrite login_unfold in *.
    destruct (fst (validateCredentials u p out)) as [[|]|e'];
      cbn in H; try discriminate H.
    reflexivity.
  - discriminate H.
  - rewrite bind_ret_console. apply validate_keeps_console.
Qed.

Lemma raising_call_writes_nothing_witness :
  snd (exec (CallLogin JUndefined (JString "secret1")) ["User logged out"])
  = ["User logged out"]
  /\ TypeError = TypeError.
Proof.
  apply (raising_call_writes_nothing
           (CallLogin JUndefined (JString "secret1")) ["User logged out"]).
  reflexivity.
Defined.

Lemma validate_true_inv (u p : jsval) (out out' : console) :
  validateCredentials u p out = (Return true, out') ->
  exists s t : string,
    u = JString s /\ p = JString t
    /\ (0 <? String.length s) = true /\ (6 <=? String.length t) = true.
Proof.
  destruct u as [|s]; [discriminate|].
  destruct p as [|t].
  - destruct s; discriminate.
  - rewrite validate_text. intros H. injection H as H _.
    apply andb_true_iff in H. exists s, t. now repeat split.
Qed.

(** X4: what [login] writes tells how it ended and, when it succeeded, for
    whom: two logins on texts that leave the same console returned the
    same boolean, and if that boolean is true their usernames are the
    same text. *)
Theorem login_console_determines_user (u1 p1 u2 p2 : string) (out : console) :
  snd (login (JString u1) (JString p1) out)
  = snd (login (JString u2) (JString p2) out) ->
  fst (login (JString u1) (JString p1) out)
  = fst (login (JString u2) (JString p2) out)
  /\ (fst (login (JString u1) (JString p1) out) = Return true -> u1 = u2).
Proof.
  rewrite !login_text.
  destruct ((0 <? String.length u1) && (6 <=? String.length p1));
    destruct ((0 <? String.length u2) && (6 <=? String.length p2));
    cbn [fst snd]; intros H; apply app_inv_head in H.
  - split; [reflexivity|]. intros _.
    assert (Hl : ("User " ++ u1 ++ " logged in successfully")%string
                 = ("User " ++ u2 ++ " logged in successfully")%string)
      by congruence.
    cbn in Hl. injection Hl as Hl.
    now apply string_append_inv_tail in Hl.
  - discriminate H.
  - discriminate H.
  - split; [reflexivity | discriminate].
Qed.

Lemma login_console_determines_user_witness :
  fst (login (JString "alice") (JString "123456") [])
  = fst (login (JString "alice") (JString "abcdefgh") [])
  /\ (fst (login (JString "alice") (JString "123456") []) = Return true ->
      "alice" = "alice").
Proof.
  apply (login_console_determines_user "alice" "123456" "alice" "abcdefgh" []).
  reflexivity.
Defined.

(** X6: the check does not tie a password to a username: when two pairs
    are accepted, the username of the one is accepted with the password of
    the other. *)
Theorem accepted_pairs_mix (u1 p1 u2 p2 : jsval) (out : console) :
  validateCredentials u1 p1 out = (Return true, out) ->
  validateCredentials u2 p2 out = (Return true, out) ->
  validateCredentials u1 p2 out = (Return true, out).
Proof.
  intros H1 H2.
  apply validate_true_inv in H1. destruct H1 as (s1 & t1 & -> & -> & Hs1 & _).
  apply validate_true_inv in H2. destruct H2 as (s2 & t2 & -> & -> & _ & Ht2).
  rewrite validate_text, Hs1, Ht2. reflexivity.
Qed.

Lemma accepted_pairs_mix_witness :
  validateCredentials (JString "alice") (JString "secret-of-bob") []
  = (Return true, []).
Proof.
  apply (accepted_pairs_mix
           (JString "alice") (JString "123456")
           (JString "bob") (JString "secret-of-bob") []);
    reflexivity.
Defined.

(** X7: a longer password is never worse: if a username is accepted with
    a password text, it is accepted with every password text that has at
    least as many code units. *)
Theorem longer_password_accepted (u : jsval) (p p' : string) (out : console) :
  String.length p <= String.length p' ->
  validateCredentials u (JString p) out = (Return true, out) ->
  validateCredentials u (JString p') out = (Return true, out).
Proof.
  intros Hlen H.
  apply validate_true_inv in H. destruct H as (s & t & -> & Ht & Hs & Hp).
  injection Ht as <-.
  rewrite validate_text, Hs. cbn [andb].
  apply Nat.leb_le in Hp. do 2 f_equal. apply Nat.leb_le. lia.
Qed.

Lemma longer_password_accepted_witness :
  validateCredentials (JString "alice") (JString "1234567890") []
  = (Return true, []).
Proof.
  apply (longer_password_accepted (JString "alice") "123456" "1234567890" []).
  - cbn. lia.
  - reflexivity.
Defined.

(** X8: [validateCredentials] and [login] raise in exactly these cases:
    the username is missing, or the password is missing and the username
    is not the empty text.  In every other case they return. *)
Theorem raises_iff_missing_argument (u p : jsval) (out : console) :
  (fst (validateCredentials u p out) = Throw TypeError
   <-> u = JUndefined \/ (p = JUndefined /\ u <> JString ""))
  /\
  (fst (login u p out) = Throw TypeError
   <-> u = JUndefined \/ (p = JUndefined /\ u <> JString "")).
Proof.
  rewrite login_outcome.
  assert (H : fst (validateCredentials u p out) = Throw TypeError
              <-> u = JUndefined \/ (p = JUndefined /\ u <> JString "")).
  { destruct u as [|s].
    - split; [now left | reflexivity].
    - destruct p as [|t].
      + destruct s as [|c s]; cbn.
        * split; [discriminate|].
          intros [H|[_ H]]; [discriminate H | now contradiction H].
        * split; [|reflexivity].
          intros _. right. split; [reflexivity | discriminate].
      + rewrite validate_text. cbn [fst].
        split; [discriminate|].
        intros [H|[H _]]; discriminate H. }
  split; exact H.
Qed.

(** ** The lines on the output stream *)

Example shown_lines_sample :
  shown_lines ["Login failed"; ""; ("a" ++ String LF "b")%string]
  = ["Login failed"; ""; "a"; "b"]%string.
Proof. reflexivity. Qed.

Lemma string_append_assoc (a b c : string) :
  ((a ++ b) ++ c)%string = (a ++ (b ++ c))%string.
Proof.
  induction a as [|x a IH]; cbn; [reflexivity | now rewrite IH].
Qed.

Lemma stream_lines_closed (m rest : string) :
  stream_lines (m ++ String LF rest) <> [].
Proof.
  induction m as [|c m IH]; cbn [append stream_lines].
  - rewrite Ascii.eqb_refl. discriminate.
  - destruct (Ascii.eqb c LF); [discriminate|].
    destruct (stream_lines (m ++ String LF rest)); discriminate.
Qed.

Lemma stream_lines_message (m rest : string) :
  stream_lines (m ++ String LF rest)
  = stream_lines (m ++ String LF "") ++ stream_lines rest.
Proof.
  induction m as [|c m IH]; cbn [append stream_lines].
  - rewrite Ascii.eqb_refl. reflexivity.
  - destruct (Ascii.eqb c LF).
    + rewrite IH. reflexivity.
    + rewrite IH.
      pose proof (stream_lines_closed m "") as Hne.
      destruct (stream_lines (m ++ String LF "")) as [|l ls];
        [now contradiction Hne | reflexivity].
Qed.

Lemma shown_lines_cons (m : string) (out : console) :
  shown_lines (m :: out) = shown_lines [m] ++ shown_lines out.
Proof.
  unfold shown_lines. cbn [stream fold_right].
  apply stream_lines_message.
Qed.

Lemma shown_lines_app (out out' : console) :
  shown_lines (out ++ out') = shown_lines out ++ shown_lines out'.
Proof.
  induction out as [|m out IH].
  - reflexivity.
  - rewrite <- app_comm_cons, shown_lines_cons, IH,
      (shown_lines_cons m out), app_assoc.
    reflexivity.
Qed.

Lemma shown_lines_one_line (m : string) :
  has_newline m = false -> shown_lines [m] = [m].
Proof.
  unfold shown_lines. cbn [stream fold_right].
  induction m as [|c m IH]; cbn [append stream_lines has_newline]; intros H.
  - rewrite Ascii.eqb_refl. reflexivity.
  - apply orb_false_iff in H. destruct H as [Hc Hm].
    rewrite Hc, (IH Hm). reflexivity.
Qed.

Lemma has_newline_append (a b : string) :
  has_newline (a ++ b) = has_newline a || has_newline b.
Proof.
  induction a as [|c a IH]; cbn; [reflexivity|].
  now rewrite IH, orb_assoc.
Qed.

Lemma success_message_one_line (u : string) :
  has_newline u = false ->
  shown_lines [("User " ++ u ++ " logged in successfully")%string]
  = [("User " ++ u ++ " logged in successfully")%string].
Proof.
  intros Hu. apply shown_lines_one_line.
  rewrite !has_newline_append, Hu. reflexivity.
Qed.

Lemma written_shape (c : call) :
  written c = [] \/ written c = ["Login failed"]
  \/ written c = ["User logged out"]
  \/ exists u p : string,
       c = CallLogin (JString u) (JString p)
       /\ u <> "" /\ 6 <= String.length p
       /\ written c = [("User " ++ u ++ " logged in successfully")%string].
Proof.
  unfold written. destruct c as [u p| |u p]; cbn [exec].
  - rewrite bind_ret_console.
    destruct u as [|u]; [now left|].
    destruct p as [|p].
    + destruct u as [|a u]; [right|]; now left.
    + rewrite login_text.
      destruct (0 <? String.length u) eqn:Eu;
        destruct (Nat.leb_spec 6 (String.length p)) as [Hp|Hp];
        cbn; try (right; now left).
      right. right. right. exists u, p.
      split; [reflexivity|]. split; [now apply length_pos_nonempty|].
      split; [exact Hp | reflexivity].
  - right. right. now left.
  - rewrite bind_ret_console, validate_keeps_console. now left.
Qed.

Lemma written_lines_cases (c : call) (l : string) :
  (forall u p : jsval, c = CallLogin u p -> newline_free u = true) ->
  In l (shown_lines (written c)) ->
  l = "Login failed" \/ l = "User logged out"
  \/ exists u p : string,
       c = CallLogin (JString u) (JString p)
       /\ u <> "" /\ 6 <= String.length p
       /\ l = ("User " ++ u ++ " logged in successfully")%string.
Proof.
  intros Hfree Hin.
  destruct (written_shape c) as [E|[E|[E|(u & p & Hc & Hu & Hp & E)]]];
    rewrite E in Hin.
  - destruct Hin.
  - cbn in Hin. destruct Hin as [H|[]]. now left.
  - cbn in Hin. destruct Hin as [H|[]]. right. now left.
  - specialize (Hfree _ _ Hc). cbn in Hfree.
    apply negb_true_iff in Hfree.
    rewrite (success_message_one_line u Hfree) in Hin.
    destruct Hin as [H|[]].
    right. right. exists u, p. now repeat split.
Qed.

(** X3: as long as no login call of the sequence has a line feed in its
    username, every line a reader sees on the console after the calls was
    there before, or is "Login failed", or is "User logged out", or is the
    success line "User <u> logged in successfully" of a login call of the
    sequence whose username u is a non-empty text and whose password is a
    text of at least 6 code units.  Lines are those of the output stream,
    cut at its line feeds. *)
Theorem shown_lines_accounted (h : list call) (out : console) (l : string) :
  (forall u p : jsval, In (CallLogin u p) h -> newline_free u = true) ->
  In l (shown_lines (snd (run h out))) ->
  In l (shown_lines out)
  \/ l = "Login failed" \/ l = "User logged out"
  \/ exists u p : string,
       In (CallLogin (JString u) (JString p)) h
       /\ u <> "" /\ 6 <= String.length p
       /\ l = ("User " ++ u ++ " logged in successfully")%string.
Proof.
  revert out. induction h as [|c h IH]; intros out Hfree Hin.
  - left. exact Hin.
  - rewrite run_cons in Hin. cbn [snd] in Hin.
    apply IH in Hin; [|intros u p Hc; apply (Hfree u p); now right].
    destruct Hin as [Hin|[Hf|[Ho|(u & p & Hc & Hu & Hp & Hl)]]].
    + rewrite exec_console, shown_lines_app in Hin.
      apply in_app_or in Hin.
      destruct Hin as [Hin|Hin]; [now left|].
      apply written_lines_cases in Hin;
        [|intros u p Hc; apply (Hfree u p); left; now symmetry].
      destruct Hin as [Hf|[Ho|(u & p & Hc & Hu & Hp & Hl)]].
      * right. now left.
      * right. right. now left.
      * right. right. right. exists u, p.
        split; [left; now symmetry|]. now repeat split.
    + right. now left.
    + right. right. now left.
    + right. right. right. exists u, p.
      split; [now right|]. now repeat split.
Qed.

Lemma shown_lines_accounted_witness :
  In "User bob logged in successfully" (shown_lines [])
  \/ "User bob logged in successfully" = "Login failed"
  \/ "User bob logged in successfully" = "User logged out"
  \/ exists u p : string,
       In (CallLogin (JString u) (JString p))
          [CallLogin (JString "bob") (JString "abc");
           CallLogin (JString "bob") (JString "abcdef");
           CallLogout]
       /\ u <> "" /\ 6 <= String.length p
       /\ "User bob logged in successfully"
          = ("User " ++ u ++ " logged in successfully")%string.
Proof.
  apply (shown_lines_accounted
           [CallLogin (JString "bob") (JString "abc");
            CallLogin (JString "bob") (JString "abcdef");
            CallLogout] [] "User bob logged in successfully").
  - intros u p [H|[H|[H|[]]]]; try discriminate H.
    + injection H as <- _. reflexivity.
    + injection H as <- _. reflexivity.
  - cbn. right. left. reflexivity.
Defined.

(** X5: a login whose username has no line feed (or is missing) never
    puts the line "User logged out" on the console: the lines it adds,
    after those a reader saw before, do not contain it, whatever the
    username and the password are otherwise. *)
Theorem login_never_shows_logout_line (u p : jsval) (out : console) :
  newline_free u = true ->
  shown_lines (snd (login u p out))
  = shown_lines out ++ shown_lines (snd (login u p []))
  /\ ~ In "User logged out" (shown_lines (snd (login u p []))).
Proof.
  intros Hfree. split.
  - rewrite login_console. apply shown_lines_app.
  - rewrite login_unfold.
    destruct (fst (validateCredentials u p [])) as [[|]|e] eqn:Ev;
      cbn [snd app].
    + destruct u as [|s]; [discriminate Ev|].
      cbn in Hfree. apply negb_true_iff in Hfree.
      cbn [to_string].
      change (("User " ++ s) ++ " logged in successfully")%string
        with ("User " ++ s ++ " logged in successfully")%string.
      rewrite (success_message_one_line s Hfree).
      intros [H|[]].
      apply (f_equal String.length) in H.
      cbn in H. rewrite string_length_append in H. cbn in H. lia.
    + cbn. intros [H|[]]. discriminate H.
    + intros [].
Qed.

Lemma login_never_shows_logout_line_witness :
  shown_lines (snd (login (JString "logged out") (JString "123456")
                      ["Login failed"]))
  = shown_lines ["Login failed"]
    ++ shown_lines (snd (login (JString "logged out") (JString "123456") []))
  /\ ~ In "User logged out"
         (shown_lines (snd (login (JString "logged out") (JString "123456")
                             []))).
Proof.
  apply (login_never_shows_logout_line
           (JString "logged out") (JString "123456") ["Login failed"]).
  reflexivity.
Defined.

(** X9: a line feed in the username is written as it is and cuts the
    success message in two.  For a username made of a text [a], a line
    feed and a text [b], accepted with a password of at least 6 code
    units, a reader of the console sees the two lines "User <a>" and
    "<b> logged in successfully" after what was there.  With
    a = "x logged in successfully" and b = "User admin" the second line is
    the success line of admin, for whom no login call was made. *)
Theorem username_line_feed_splits_message (a b p : string) (out : console) :
  has_newline a = false ->
  has_newline b = false ->
  6 <= String.length p ->
  fst (login (JString (a ++ String LF b)) (JString p) out) = Return true
  /\ shown_lines (snd (login (JString (a ++ String LF b)) (JString p) out))
     = shown_lines out
       ++ [("User " ++ a)%string; (b ++ " logged in successfully")%string].
Proof.
  intros Ha Hb Hp.
  rewrite login_text.
  assert (Hu : (0 <? String.length (a ++ String LF b)) = true).
  { apply Nat.ltb_lt. rewrite string_length_append. cbn. lia. }
  apply Nat.leb_le in Hp. rewrite Hu, Hp. cbn [andb fst snd].
  split; [reflexivity|].
  rewrite shown_lines_app. f_equal.
  unfold shown_lines. cbn [stream fold_right].
  replace (("User " ++ (a ++ String LF b) ++ " logged in successfully")
             ++ String LF "")%string
    with (("User " ++ a)
            ++ String LF ((b ++ " logged in successfully") ++ String LF ""))%string.
  - rewrite stream_lines_message.
    change (stream_lines (("User " ++ a) ++ String LF ""))
      with (shown_lines [("User " ++ a)%string]).
    change (stream_lines ((b ++ " logged in successfully") ++ String LF ""))
      with (shown_lines [(b ++ " logged in successfully")%string]).
    rewrite !shown_lines_one_line.
    + reflexivity.
    + rewrite has_newline_append, Hb. reflexivity.
    + rewrite has_newline_append, Ha. reflexivity.
  - rewrite !string_append_assoc. cbn [append]. reflexivity.
Qed.

Lemma username_line_feed_splits_message_witness :
  fst (login (JString ("x logged in successfully" ++ String LF "User admin"))
         (JString "123456") [])
  = Return true
  /\ shown_lines
       (snd (login
               (JString ("x logged in successfully" ++ String LF "User admin"))
               (JString "123456") []))
     = shown_lines []
       ++ ["User x logged in successfully";
           "User admin logged in successfully"]%string.
Proof.
  apply (username_line_feed_splits_message
           "x logged in successfully" "User admin" "123456" []).
  - reflexivity.
  - reflexivity.
  - cbn. lia.
Defined.
